(** * The [publish:gitlab:create-issue] scaffolder action

    A shallow embedding of the two versions of
    [createPublishGitlabIssueAction] found in the repository:

    - [V1] is the revision of [gitlabIssue.ts] kept as the unnamed source
      part, which accepts a caller token and joins every serialized file;
    - [V2] is [plugins/scaffolder-backend/.../publish/gitlabIssue.ts],
      which looks a single file up by its path.

    The handler is an [async] function whose awaits are strictly sequential,
    so it is embedded as a computation in a writer/exception monad: the
    writer collects the observable events (logger, console, client
    construction, filesystem serialization, the two remote calls, the
    output sink) and the exception part carries a thrown JavaScript error. *)

From Stdlib Require Import String Ascii List ZArith Bool Lia.
Import ListNotations.
Local Open Scope string_scope.

(** ** JavaScript values used by the handler *)

(** A thrown [Error] object: its [name] and its [message]. *)
Record JsError : Type := mkError { err_name : string; err_message : string }.

(** [new InputError(msg)] from [@backstage/errors]. *)
Definition InputError (msg : string) : JsError := mkError "InputError" msg.

Definition isInputError (e : JsError) : bool := err_name e =? "InputError".

(** [Error.prototype.toString], which is what a template literal [`${e}`]
    calls on a thrown error. *)
Definition Error_toString (e : JsError) : string :=
  if err_name e =? "" then err_message e
  else if err_message e =? "" then err_name e
  else err_name e ++ ": " ++ err_message e.

(** Truthiness of an optional string property: [undefined] and the empty
    string are falsy, every other string is truthy. *)
Definition truthy (v : option string) : bool :=
  match v with
  | Some s => negb (s =? "")
  | None => false
  end.

(** The nullish coalescing operator [a ?? b]: only [undefined] falls through
    to [b]; an empty string does not. *)
Definition nullish {A : Type} (a b : option A) : option A :=
  match a with
  | Some x => Some x
  | None => b
  end.

(** [Array.prototype.join(separator)]; the separator defaults to a comma
    when the argument is omitted. *)
Definition Array_join (separator : option string) (l : list string) : string :=
  String.concat (match separator with Some s => s | None => "," end) l.

(** [Array.prototype.find]: the first element satisfying the predicate, or
    [undefined]. *)
Definition Array_find {A : Type} (p : A -> bool) (l : list A) : option A :=
  List.find p l.

(** [s] has [sub] as a contiguous substring. *)
Definition contains (s sub : string) : Prop :=
  exists pre post, s = pre ++ sub ++ post.

(** ** Data model *)

(** Result of [parseRepoUrl]. *)
Record RepoLocator : Type := mkLocator {
  host : string;
  owner : string;
  repo : string
}.

(** [GitLabIntegrationConfig]: [{ baseUrl, token? }]. *)
Record GitLabIntegrationConfig : Type := mkConfig {
  baseUrl : string;
  cfg_token : option string
}.

(** [GitLabIntegration], as returned by [integrations.gitlab.byHost]. *)
Record GitLabIntegration : Type := mkIntegration {
  config : GitLabIntegrationConfig
}.

(** The property under which the credential is handed to the client. *)
Inductive TokenType : Type := token_kind | oauthToken_kind.

Definition TokenType_key (k : TokenType) : string :=
  match k with
  | token_kind => "token"
  | oauthToken_kind => "oauthToken"
  end.

(** The options object [{ host, [tokenType]: token }] given to
    [new Gitlab(...)].  The value is optional because a non-null assertion
    ([!]) does not check anything at run time. *)
Record GitlabOptions : Type := mkOptions {
  opt_host : string;
  opt_tokenType : TokenType;
  opt_token : option string
}.

(** A [Buffer] is a sequence of bytes. *)
Definition Buffer : Type := string.

(** One entry of [serializeDirectoryContents]. *)
Record SerializedFile : Type := mkFile {
  path : string;
  content : Buffer
}.

(** The project returned by [api.Projects.show]. *)
Record ProjectSchema : Type := mkProject { id : Z }.

(** The issue returned by [api.Issues.create]. *)
Record IssueSchema : Type := mkIssueRes { web_url : string }.

(** The payload object built by the handler. *)
Record Issue : Type := mkIssue {
  issue_title : string;
  issue_description : option string;
  issue_labels : list string
}.

(** ** Observable effects *)

Inductive Event : Type :=
| LoggerWarn (msg : string)                 (* ctx.logger.warn *)
| ConsoleWarn (msg : string)                (* console.warn *)
| ConsoleLog (label : string)               (* console.log *)
| NewGitlab (opts : GitlabOptions)          (* new Gitlab({...}) *)
| FsSerialize (root : string)               (* serializeDirectoryContents *)
| NetProjectsShow (projectPath : string)    (* api.Projects.show *)
| NetIssuesCreate (projectId : Z) (issue : Issue) (* api.Issues.create *)
| Output (key value : string).              (* ctx.output *)

Definition isNetwork (ev : Event) : bool :=
  match ev with
  | NetProjectsShow _ | NetIssuesCreate _ _ => true
  | _ => false
  end.

Definition isFilesystem (ev : Event) : bool :=
  match ev with
  | FsSerialize _ => true
  | _ => false
  end.

Definition isOutput (ev : Event) : bool :=
  match ev with
  | Output _ _ => true
  | _ => false
  end.

(** The pairs written to the output sink, in order. *)
Fixpoint outputs (tr : list Event) : list (string * string) :=
  match tr with
  | [] => []
  | Output k v :: tr' => (k, v) :: outputs tr'
  | _ :: tr' => outputs tr'
  end.

(** How a computation ends. *)
Inductive Outcome (A : Type) : Type :=
| Returned (a : A)
| Thrown (e : JsError).
Arguments Returned {A} a.
Arguments Thrown {A} e.

(** A computation: the events it performed and how it ended. *)
Definition Eff (A : Type) : Type := (list Event * Outcome A)%type.

Definition trace {A : Type} (m : Eff A) : list Event := fst m.
Definition outcome {A : Type} (m : Eff A) : Outcome A := snd m.

Definition ret {A : Type} (a : A) : Eff A := ([], Returned a).

Definition throw {A : Type} (e : JsError) : Eff A := ([], Thrown e).

Definition bind {A B : Type} (m : Eff A) (k : A -> Eff B) : Eff B :=
  match m with
  | (t1, Returned a) => let (t2, r) := k a in ((t1 ++ t2)%list, r)
  | (t1, Thrown e) => (t1, Thrown e)
  end.

Definition emit (ev : Event) : Eff unit := ([ev], Returned tt).

(** A call that may throw but has no observable effect of its own. *)
Definition lift {A : Type} (r : JsError + A) : Eff A :=
  match r with
  | inr a => ret a
  | inl e => throw e
  end.

(** [await] of an external call: the call is observed, then it resolves or
    rejects. *)
Definition await {A : Type} (ev : Event) (r : JsError + A) : Eff A :=
  bind (emit ev) (fun _ => lift r).

(** [try { body } catch (e) { handler }]. *)
Definition try_catch {A : Type} (body : Eff A) (handler : JsError -> Eff A) : Eff A :=
  match body with
  | (t1, Thrown e) => let (t2, r) := handler e in ((t1 ++ t2)%list, r)
  | done => done
  end.

Declare Scope eff_scope.
Delimit Scope eff_scope with eff.
Notation "x <- m ;; k" := (bind m (fun x => k))
  (at level 61, m at next level, right associativity) : eff_scope.
Notation "m ;; k" := (bind m (fun _ => k))
  (at level 61, right associativity) : eff_scope.

(** ** External collaborators

    Everything the handler imports and calls; none of it is defined in the
    two source files, so the handler is parameterised by it. *)
Record World : Type := mkWorld {
  (* [parseRepoUrl(repoUrl, integrations)] from [./util] *)
  parseRepoUrl : string -> JsError + RepoLocator;
  (* [integrations.gitlab.byHost(host)] *)
  byHost : string -> option GitLabIntegration;
  (* [resolveSafeChildPath(base, path)] from [@backstage/backend-common] *)
  resolveSafeChildPath : string -> string -> JsError + string;
  (* [serializeDirectoryContents(root, { gitignore: true })] *)
  serializeDirectoryContents : string -> JsError + list SerializedFile;
  (* [Buffer.prototype.toString()] *)
  Buffer_toString : Buffer -> string;
  (* [api.Projects.show(projectPath)] of the client built from [opts] *)
  Projects_show : GitlabOptions -> string -> JsError + ProjectSchema;
  (* [api.Issues.create(projectId, issue)] of the client built from [opts] *)
  Issues_create : GitlabOptions -> Z -> Issue -> JsError + IssueSchema
}.

(** The double-quote character, which the deprecation message contains. *)
Definition dquote : string := String (Ascii.ascii_of_nat 34) EmptyString.

Definition deprecationWarning : string :=
  "Property " ++ dquote ++ "projectid" ++ dquote
  ++ " is deprecated and no longer to needed to create a MR".

(** ** Version 1: the concatenating handler (unnamed source part) *)
Module V1.

(** The handler's declared input type. *)
Record Input : Type := mkInput {
  repoUrl : string;
  title : string;
  description : string;
  branchName : string;
  targetPath : string;
  token : option string;
  projectid : option string;
  removeSourceBranch : option bool
}.

Record Ctx : Type := mkCtx {
  input : Input;
  workspacePath : string
}.

(** The property names of [schema.output.properties]. *)
Definition outputSchemaKeys : list string :=
  ["projectid"; "projectPath"; "mergeRequestURL"].

Local Open Scope eff_scope.

Definition handler (w : World) (ctx : Ctx) : Eff unit :=
  let repoUrl := repoUrl (input ctx) in
  loc <- lift (parseRepoUrl w repoUrl) ;;
  let projectPath := owner loc ++ "/" ++ repo loc in
  projectPath <-
    match projectid (input ctx) with
    | Some pid =>
        if truthy (Some pid) then
          emit (LoggerWarn deprecationWarning) ;;
          emit (ConsoleWarn deprecationWarning) ;;
          ret pid
        else ret projectPath
    | None => ret projectPath
    end ;;
  match byHost w (host loc) with
  | None =>
      throw (InputError
        ("No matching integration configuration for host " ++ host loc
         ++ ", please check your integrations config"))
  | Some integrationConfig =>
      if negb (truthy (cfg_token (config integrationConfig)))
         && negb (truthy (token (input ctx)))
      then throw (InputError ("No token available for host " ++ host loc))
      else
        let token := nullish (token (input ctx))
                             (cfg_token (config integrationConfig)) in
        let tokenType :=
          if truthy (V1.token (input ctx)) then oauthToken_kind else token_kind in
        let api := mkOptions (baseUrl (config integrationConfig)) tokenType token in
        emit (NewGitlab api) ;;
        targetPath <- lift (resolveSafeChildPath w (workspacePath ctx)
                              (targetPath (input ctx))) ;;
        fileContents <- await (FsSerialize targetPath)
                              (serializeDirectoryContents w targetPath) ;;
        let desc :=
          Array_join None
            (map (fun file => Buffer_toString w (content file)) fileContents) in
        projects <- await (NetProjectsShow projectPath)
                          (Projects_show w api projectPath) ;;
        emit (ConsoleLog "got project") ;;
        let issue := mkIssue (title (input ctx)) (Some desc) ["onboarding"] in
        emit (ConsoleLog "Trying to create issue ") ;;
        try_catch
          (issueRes <- await (NetIssuesCreate (id projects) issue)
                             (Issues_create w api (id projects) issue) ;;
           emit (ConsoleLog "Issue Created") ;;
           emit (Output "projectid" projectPath) ;;
           emit (Output "projectPath" projectPath) ;;
           emit (Output "mergeRequestUrl" (web_url issueRes)))
          (fun e =>
             throw (InputError
               ("Creating the issue to " ++ projectPath ++ " failed "
                ++ Error_toString e)))
  end.

End V1.

(** ** Version 2: the single-file handler ([gitlabIssue.ts]) *)
Module V2.

(** The handler's declared input type, together with the [token] property
    that the handler still reads from the run-time input object. *)
Record Input : Type := mkInput {
  repoUrl : string;
  title : string;
  targetPath : string;
  projectid : option string;
  token : option string
}.

Record Ctx : Type := mkCtx {
  input : Input;
  workspacePath : string
}.

(** The property names of [schema.output.properties]. *)
Definition outputSchemaKeys : list string :=
  ["projectid"; "projectPath"; "issueUrl"].

Local Open Scope eff_scope.

Definition handler (w : World) (ctx : Ctx) : Eff unit :=
  let repoUrl := repoUrl (input ctx) in
  loc <- lift (parseRepoUrl w repoUrl) ;;
  let projectPath := owner loc ++ "/" ++ repo loc in
  projectPath <-
    match projectid (input ctx) with
    | Some pid =>
        if truthy (Some pid) then
          emit (LoggerWarn deprecationWarning) ;;
          emit (ConsoleWarn deprecationWarning) ;;
          ret pid
        else ret projectPath
    | None => ret projectPath
    end ;;
  match byHost w (host loc) with
  | None =>
      throw (InputError
        ("No matching integration configuration for host " ++ host loc
         ++ ", please check your integrations config"))
  | Some integrationConfig =>
      if negb (truthy (cfg_token (config integrationConfig)))
         && negb (truthy (token (input ctx)))
      then throw (InputError ("No token available for host " ++ host loc))
      else
        let token := cfg_token (config integrationConfig) in
        let tokenType := token_kind in
        let api := mkOptions (baseUrl (config integrationConfig)) tokenType token in
        emit (NewGitlab api) ;;
        targetPath <- lift (resolveSafeChildPath w (workspacePath ctx)
                              (targetPath (input ctx))) ;;
        fileContents <- await (FsSerialize targetPath)
                              (serializeDirectoryContents w targetPath) ;;
        emit (ConsoleLog "Getting file contents for ") ;;
        let desc :=
          option_map (fun file => Buffer_toString w (content file))
            (Array_find (fun file => path file =? V2.targetPath (input ctx))
                        fileContents) in
        projects <- await (NetProjectsShow projectPath)
                          (Projects_show w api projectPath) ;;
        let issue := mkIssue (title (input ctx)) desc ["onboarding"] in
        emit (ConsoleLog "Trying to create issue ") ;;
        try_catch
          (issueRes <- await (NetIssuesCreate (id projects) issue)
                             (Issues_create w api (id projects) issue) ;;
           emit (ConsoleLog "Issue Created") ;;
           emit (Output "projectid" projectPath) ;;
           emit (Output "projectPath" projectPath) ;;
           emit (Output "issueUrl" (web_url issueRes)))
          (fun e =>
             throw (InputError
               ("Creating the issue to " ++ projectPath ++ " failed "
                ++ Error_toString e)))
  end.

End V2.

(** ** Path containment *)
Module Paths.

(** Modelled from the spec: the segments of a path, which
    [resolveSafeChildPath] (imported from [@backstage/backend-common], not
    among the sources) has to walk in order to join two paths. *)
Fixpoint segments_from (cur s : string) : list string :=
  match s with
  | EmptyString => [cur]
  | String c rest =>
      if Ascii.eqb c "/"%char then cur :: segments_from EmptyString rest
      else segments_from (cur ++ String c EmptyString) rest
  end.

(** Modelled from the spec: one step of the join performed by the missing
    [resolveSafeChildPath]; empty and [.] segments stay in place, [..]
    moves to the parent directory, any other segment enters a child. *)
Definition enter (dir : list string) (seg : string) : list string :=
  if seg =? EmptyString then dir
  else if seg =? "." then dir
  else if seg =? ".." then removelast dir
  else (dir ++ [seg])%list.

(** Modelled from the spec: the directory denoted by a path, for the
    missing [resolveSafeChildPath]. *)
Definition directory (from : list string) (p : string) : list string :=
  fold_left enter (segments_from EmptyString p) from.

(** Modelled from the spec: the join of the workspace root with the
    caller-supplied relative [targetPath], for the missing
    [resolveSafeChildPath]. *)
Definition join (base p : string) : list string :=
  directory (directory [] base) p.

(** Modelled from the spec: whether [target] lies inside [base], for the
    missing [resolveSafeChildPath]. *)
Fixpoint isChildPath (base target : list string) : bool :=
  match base, target with
  | [], _ => true
  | b :: base', t :: target' => (b =? t) && isChildPath base' target'
  | _ :: _, [] => false
  end.

(** Modelled from the spec: a [targetPath] escapes the workspace root when
    its join with the root does not lie inside the root (containment
    invariant of the missing [resolveSafeChildPath]). *)
Definition escapesRoot (base p : string) : bool :=
  negb (isChildPath (directory [] base) (join base p)).

Definition containmentMessage : string :=
  "Relative path is not allowed to refer to a directory outside its parent".

(** Modelled from the spec: [resolveSafeChildPath], which is imported from
    [@backstage/backend-common] and absent from the sources.  The join
    rejects any path that escapes the workspace root, failing with an
    input error rather than silently clamping. *)
Definition resolveSafeChildPath (base p : string) : JsError + string :=
  if escapesRoot base p then inl (InputError containmentMessage)
  else inr ("/" ++ String.concat "/" (join base p)).

End Paths.

(** ** One invocation of either version *)

Inductive Invocation : Type :=
| JoinAll (ctx : V1.Ctx)        (* the concatenating handler *)
| SingleFile (ctx : V2.Ctx).    (* the single-file handler *)

Definition run (w : World) (inv : Invocation) : Eff unit :=
  match inv with
  | JoinAll ctx => V1.handler w ctx
  | SingleFile ctx => V2.handler w ctx
  end.

Definition inv_repoUrl (inv : Invocation) : string :=
  match inv with
  | JoinAll ctx => V1.repoUrl (V1.input ctx)
  | SingleFile ctx => V2.repoUrl (V2.input ctx)
  end.

Definition inv_title (inv : Invocation) : string :=
  match inv with
  | JoinAll ctx => V1.title (V1.input ctx)
  | SingleFile ctx => V2.title (V2.input ctx)
  end.

Definition inv_targetPath (inv : Invocation) : string :=
  match inv with
  | JoinAll ctx => V1.targetPath (V1.input ctx)
  | SingleFile ctx => V2.targetPath (V2.input ctx)
  end.

Definition inv_token (inv : Invocation) : option string :=
  match inv with
  | JoinAll ctx => V1.token (V1.input ctx)
  | SingleFile ctx => V2.token (V2.input ctx)
  end.

Definition inv_projectid (inv : Invocation) : option string :=
  match inv with
  | JoinAll ctx => V1.projectid (V1.input ctx)
  | SingleFile ctx => V2.projectid (V2.input ctx)
  end.

Definition inv_workspacePath (inv : Invocation) : string :=
  match inv with
  | JoinAll ctx => V1.workspacePath ctx
  | SingleFile ctx => V2.workspacePath ctx
  end.

(** The output key under which each version reports the resource URL. *)
Definition resourceUrlKey (inv : Invocation) : string :=
  match inv with
  | JoinAll _ => "mergeRequestUrl"
  | SingleFile _ => "issueUrl"
  end.

(** The output keys declared by the schema of each version. *)
Definition declaredOutputKeys (inv : Invocation) : list string :=
  match inv with
  | JoinAll _ => V1.outputSchemaKeys
  | SingleFile _ => V2.outputSchemaKeys
  end.

(** ** Reading a trace *)

(** The credential handed to the client: the options of the first
    [new Gitlab(...)] of the trace. *)
Fixpoint credential (tr : list Event) : option GitlabOptions :=
  match tr with
  | [] => None
  | NewGitlab opts :: _ => Some opts
  | _ :: tr' => credential tr'
  end.

(** The payloads submitted to [api.Issues.create], in order. *)
Fixpoint submitted (tr : list Event) : list Issue :=
  match tr with
  | [] => []
  | NetIssuesCreate _ issue :: tr' => issue :: submitted tr'
  | _ :: tr' => submitted tr'
  end.

(** The events that precede the first write to the output sink. *)
Fixpoint beforeOutputs (tr : list Event) : list Event :=
  match tr with
  | [] => []
  | ev :: tr' => if isOutput ev then [] else ev :: beforeOutputs tr'
  end.

(** Kinds of events, for counting them in a trace. *)
Definition isClient (ev : Event) : bool :=
  match ev with
  | NewGitlab _ => true
  | _ => false
  end.

Definition isLookup (ev : Event) : bool :=
  match ev with
  | NetProjectsShow _ => true
  | _ => false
  end.

Definition isWarning (ev : Event) : bool :=
  match ev with
  | LoggerWarn _ | ConsoleWarn _ => true
  | _ => false
  end.

(** ** The handler by cases

    The run of either handler written out exit by exit: what was observed
    up to each point where the handler can stop, and how it stops there.
    [run_unfold] below proves that this is what the embedded handlers
    compute; the properties are then read off these cases. *)

(** The two warnings of the deprecation branch. *)
Definition warnings (inv : Invocation) : list Event :=
  if truthy (inv_projectid inv)
  then [LoggerWarn deprecationWarning; ConsoleWarn deprecationWarning]
  else [].

(** The value of [projectPath] after the deprecation branch. *)
Definition projectPath (inv : Invocation) (loc : RepoLocator) : string :=
  if truthy (inv_projectid inv)
  then match inv_projectid inv with Some pid => pid | None => EmptyString end
  else owner loc ++ "/" ++ repo loc.

(** The options the client is built with. *)
Definition clientOptions (inv : Invocation) (integ : GitLabIntegration)
  : GitlabOptions :=
  match inv with
  | JoinAll ctx =>
      mkOptions (baseUrl (config integ))
        (if truthy (V1.token (V1.input ctx)) then oauthToken_kind else token_kind)
        (nullish (V1.token (V1.input ctx)) (cfg_token (config integ)))
  | SingleFile ctx =>
      mkOptions (baseUrl (config integ)) token_kind (cfg_token (config integ))
  end.

(** The value of [desc]. *)
Definition descriptionOf (w : World) (inv : Invocation)
    (files : list SerializedFile) : option string :=
  match inv with
  | JoinAll _ =>
      Some (Array_join None
              (map (fun file => Buffer_toString w (content file)) files))
  | SingleFile ctx =>
      option_map (fun file => Buffer_toString w (content file))
        (Array_find (fun file => path file =? V2.targetPath (V2.input ctx)) files)
  end.

(** The object [issue]. *)
Definition payload (w : World) (inv : Invocation) (files : list SerializedFile)
  : Issue :=
  mkIssue (inv_title inv) (descriptionOf w inv files) ["onboarding"].

(** What each version prints between the serialization and the lookup, and
    between the lookup and the submission. *)
Definition logsAfterSerialize (inv : Invocation) : list Event :=
  match inv with
  | JoinAll _ => []
  | SingleFile _ => [ConsoleLog "Getting file contents for "]
  end.

Definition logsAfterLookup (inv : Invocation) : list Event :=
  match inv with
  | JoinAll _ => [ConsoleLog "got project"]
  | SingleFile _ => []
  end.

Definition run_cases (w : World) (inv : Invocation) : Eff unit :=
  match parseRepoUrl w (inv_repoUrl inv) with
  | inl e => ([], Thrown e)
  | inr loc =>
  match byHost w (host loc) with
  | None =>
      (warnings inv,
       Thrown (InputError
         ("No matching integration configuration for host " ++ host loc
          ++ ", please check your integrations config")))
  | Some integ =>
  if negb (truthy (cfg_token (config integ))) && negb (truthy (inv_token inv))
  then (warnings inv,
        Thrown (InputError ("No token available for host " ++ host loc)))
  else
  let api := clientOptions inv integ in
  let built := (warnings inv ++ [NewGitlab api])%list in
  match resolveSafeChildPath w (inv_workspacePath inv) (inv_targetPath inv) with
  | inl e => (built, Thrown e)
  | inr root =>
  match serializeDirectoryContents w root with
  | inl e => ((built ++ [FsSerialize root])%list, Thrown e)
  | inr files =>
  let looked :=
    (built ++ FsSerialize root :: logsAfterSerialize inv
       ++ [NetProjectsShow (projectPath inv loc)])%list in
  match Projects_show w api (projectPath inv loc) with
  | inl e => (looked, Thrown e)
  | inr projects =>
  let submit :=
    (looked ++ logsAfterLookup inv
       ++ [ConsoleLog "Trying to create issue ";
           NetIssuesCreate (id projects) (payload w inv files)])%list in
  match Issues_create w api (id projects) (payload w inv files) with
  | inl e =>
      (submit,
       Thrown (InputError
         ("Creating the issue to " ++ projectPath inv loc ++ " failed "
          ++ Error_toString e)))
  | inr issueRes =>
      ((submit ++
          [ConsoleLog "Issue Created";
           Output "projectid" (projectPath inv loc);
           Output "projectPath" (projectPath inv loc);
           Output (resourceUrlKey inv) (web_url issueRes)])%list,
       Returned tt)
  end end end end end end.

(** ** A concrete environment, used to run the handlers *)
Module Demo.

Definition locator : RepoLocator := mkLocator "gitlab.com" "org" "repo".

Definition integration : GitLabIntegration :=
  mkIntegration (mkConfig "https://gitlab.com" (Some "glpat-admin")).

Definition issueUrl : string := "https://gitlab.com/org/repo/-/issues/1".

(** An environment with one known repository URL and one host; the
    registry, the serializer and the two remote calls are arguments. *)
Definition world
    (registry : string -> option GitLabIntegration)
    (files : JsError + list SerializedFile)
    (show : JsError + ProjectSchema)
    (create : JsError + IssueSchema) : World :=
  {| parseRepoUrl := fun url =>
       if url =? "gitlab.com/org/repo" then inr locator
       else inl (InputError "Invalid repo URL");
     byHost := registry;
     resolveSafeChildPath := Paths.resolveSafeChildPath;
     serializeDirectoryContents := fun _ => files;
     Buffer_toString := fun b => b;
     Projects_show := fun _ _ => show;
     Issues_create := fun _ _ _ => create |}.

Definition registry (h : string) : option GitLabIntegration :=
  if h =? "gitlab.com" then Some integration else None.

Definition twoFiles : list SerializedFile :=
  [mkFile "a.md" "X"; mkFile "b.md" "Y"].

(** Everything succeeds. *)
Definition happy : World :=
  world registry (inr twoFiles) (inr (mkProject 42)) (inr (mkIssueRes issueUrl)).

(** The registry has no GitLab integration at all. *)
Definition noIntegration : World :=
  world (fun _ => None) (inr twoFiles) (inr (mkProject 42))
        (inr (mkIssueRes issueUrl)).

(** The integration has no configured token. *)
Definition noConfiguredToken : World :=
  world (fun _ => Some (mkIntegration (mkConfig "https://gitlab.com" None)))
        (inr twoFiles) (inr (mkProject 42)) (inr (mkIssueRes issueUrl)).

(** The project lookup is rejected by the remote. *)
Definition lookupFails : World :=
  world registry (inr twoFiles) (inl (mkError "Error" "404 Project Not Found"))
        (inr (mkIssueRes issueUrl)).

(** The issue creation is rejected by the remote. *)
Definition createFails : World :=
  world registry (inr twoFiles) (inr (mkProject 42))
        (inl (mkError "Error" "403 Forbidden")).

Definition input1 (targetPath : string) (token projectid : option string)
  : V1.Input :=
  V1.mkInput "gitlab.com/org/repo" "Onboarding" "" "main" targetPath
             token projectid None.

Definition ctx1 (targetPath : string) (token projectid : option string)
  : V1.Ctx :=
  V1.mkCtx (input1 targetPath token projectid) "/tmp/workspace".

Definition input2 (targetPath : string) (token projectid : option string)
  : V2.Input :=
  V2.mkInput "gitlab.com/org/repo" "Onboarding" targetPath projectid token.

Definition ctx2 (targetPath : string) (token projectid : option string)
  : V2.Ctx :=
  V2.mkCtx (input2 targetPath token projectid) "/tmp/workspace".

End Demo.


(** * Properties *)

(** ** Substrings of template literals *)

Lemma append_assoc (a b c : string) : (a ++ b) ++ c = a ++ (b ++ c).
Proof. induction a as [|ch a IH]; simpl; [reflexivity | now rewrite IH]. Qed.

Lemma append_nil_r (a : string) : a ++ EmptyString = a.
Proof. induction a as [|ch a IH]; simpl; [reflexivity | now rewrite IH]. Qed.

Lemma contains_refl (s : string) : contains s s.
Proof. exists EmptyString, EmptyString. simpl. now rewrite append_nil_r. Qed.

Lemma contains_prefix (pre s sub : string) :
  contains s sub -> contains (pre ++ s) sub.
Proof.
  intros (a & b & ->). exists (pre ++ a), b. now rewrite append_assoc.
Qed.

Lemma contains_suffix (s post sub : string) :
  contains s sub -> contains (s ++ post) sub.
Proof.
  intros (a & b & ->). exists a, (b ++ post). now rewrite !append_assoc.
Qed.

(** The rendering of a thrown error mentions its message. *)
Lemma Error_toString_contains_message (e : JsError) :
  contains (Error_toString e) (err_message e).
Proof.
  unfold Error_toString.
  destruct (err_name e =? EmptyString); [apply contains_refl|].
  destruct (err_message e =? EmptyString) eqn:E.
  - apply String.eqb_eq in E. rewrite E. exists (err_name e), EmptyString.
    simpl. now rewrite append_nil_r.
  - apply contains_prefix, contains_prefix, contains_refl.
Qed.

(** ** Running a handler by cases on what the environment answers *)

Ltac ask_environment :=
  match goal with
  | |- context [parseRepoUrl ?w ?u] =>
      destruct (parseRepoUrl w u) as [?e|?loc] eqn:?Hparse
  | |- context [V1.projectid ?i] =>
      destruct (V1.projectid i) as [?pid|] eqn:?Hpid
  | |- context [V2.projectid ?i] =>
      destruct (V2.projectid i) as [?pid|] eqn:?Hpid
  | |- context [truthy ?v] =>
      destruct (truthy v) eqn:?Htruthy
  | |- context [byHost ?w ?h] =>
      destruct (byHost w h) as [?integ|] eqn:?Hhost
  | |- context [resolveSafeChildPath ?w ?b ?p] =>
      destruct (resolveSafeChildPath w b p) as [?e|?root] eqn:?Hsafe
  | |- context [serializeDirectoryContents ?w ?r] =>
      destruct (serializeDirectoryContents w r) as [?e|?files] eqn:?Hfiles
  | |- context [Projects_show ?w ?a ?p] =>
      destruct (Projects_show w a p) as [?e|?proj] eqn:?Hshow
  | |- context [Issues_create ?w ?a ?i ?x] =>
      destruct (Issues_create w a i x) as [?e|?res] eqn:?Hcreate
  end.

Ltac run_handler :=
  cbv beta iota delta [run V1.handler V2.handler await lift bind try_catch emit
                       ret throw trace outcome];
  repeat (cbn beta iota zeta delta [app andb negb fst snd]; ask_environment);
  cbn beta iota zeta delta [app andb negb fst snd].

(** The embedded handlers compute exactly the cases of [run_cases]. *)
Lemma run_unfold (w : World) (inv : Invocation) : run w inv = run_cases w inv.
Proof.
  destruct inv as [ctx|ctx];
    cbv beta iota zeta delta
      [run_cases warnings projectPath clientOptions payload descriptionOf
       logsAfterSerialize logsAfterLookup resourceUrlKey
       inv_repoUrl inv_title inv_targetPath inv_token inv_projectid
       inv_workspacePath];
    run_handler;
    first [ reflexivity
          | match goal with H : truthy None = true |- _ => discriminate H end ].
Qed.

(** Case analysis over [run_cases]: one goal per exit of the handler. *)
Ltac ask_cases :=
  match goal with
  | |- context [parseRepoUrl ?w ?u] =>
      destruct (parseRepoUrl w u) as [?e|?loc] eqn:?Hparse
  | |- context [byHost ?w ?h] =>
      destruct (byHost w h) as [?integ|] eqn:?Hhost
  | |- context [negb (truthy ?a) && negb (truthy ?b)] =>
      destruct (negb (truthy a) && negb (truthy b)) eqn:?Hguard
  | |- context [resolveSafeChildPath ?w ?b ?p] =>
      destruct (resolveSafeChildPath w b p) as [?e|?root] eqn:?Hsafe
  | |- context [serializeDirectoryContents ?w ?r] =>
      destruct (serializeDirectoryContents w r) as [?e|?files] eqn:?Hfiles
  | |- context [Projects_show ?w ?a ?p] =>
      destruct (Projects_show w a p) as [?e|?proj] eqn:?Hshow
  | |- context [Issues_create ?w ?a ?i ?x] =>
      destruct (Issues_create w a i x) as [?e|?res] eqn:?Hcreate
  end.

Ltac by_cases :=
  rewrite ?run_unfold;
  cbv beta iota zeta delta [run_cases];
  repeat (ask_cases; cbn beta iota zeta delta [trace outcome fst snd]).

(** Identify the answers named in the statement with those of the case. *)
Ltac same_answer :=
  repeat (match goal with
          | H : inr ?a = inr ?b |- _ => assert (a = b) by congruence; clear H
          | H : inl ?a = inl ?b |- _ => assert (a = b) by congruence; clear H
          | H : Some ?a = Some ?b |- _ => assert (a = b) by congruence; clear H
          | H1 : ?t = inr ?a, H2 : ?t = inr ?b |- _ =>
              assert (a = b) by congruence; clear H2
          | H1 : ?t = inl ?a, H2 : ?t = inl ?b |- _ =>
              assert (a = b) by congruence; clear H2
          | H1 : ?t = Some ?a, H2 : ?t = Some ?b |- _ =>
              assert (a = b) by congruence; clear H2
          end; subst).

(** Spell the trace of the case out, event by event. *)
Ltac spell_out inv :=
  unfold warnings, logsAfterSerialize, logsAfterLookup;
  destruct (truthy (inv_projectid inv)) eqn:?Hpresent;
  destruct inv as [?ctx|?ctx];
  cbn [app credential submitted outputs beforeOutputs filter
       isNetwork isFilesystem isOutput resourceUrlKey].

(** Splitting membership hypotheses over a spelled-out trace.  Equations
    between events are opened with [congruence], which leaves the template
    literals inside them as they are written. *)
Ltac open_event H :=
  lazymatch type of H with
  | NewGitlab ?a = NewGitlab ?b =>
      assert (a = b) by congruence; clear H
  | FsSerialize ?a = FsSerialize ?b =>
      assert (a = b) by congruence; clear H
  | NetProjectsShow ?a = NetProjectsShow ?b =>
      assert (a = b) by congruence; clear H
  | NetIssuesCreate ?a ?i = NetIssuesCreate ?b ?j =>
      assert (a = b) by congruence; assert (i = j) by congruence; clear H
  | Output ?a ?i = Output ?b ?j =>
      assert (a = b) by congruence; assert (i = j) by congruence; clear H
  end.

Ltac pick_events :=
  repeat match goal with
  | H : In _ (_ :: _) |- _ => destruct H as [H|H]
  | H : In _ [] |- _ => destruct H
  | H : @eq Event _ _ |- _ => first [discriminate H | open_event H]
  end;
  subst.

(** ** Missing integration *)

(** C5. Whenever the registry has no configuration for the parsed host, the
    handler (either version) throws an [InputError] whose message names that
    host, and its trace contains neither a remote call nor a directory
    serialization. *)
Theorem missing_integration_aborts (w : World) (inv : Invocation) (loc : RepoLocator) :
  parseRepoUrl w (inv_repoUrl inv) = inr loc ->
  byHost w (host loc) = None ->
  exists msg,
    outcome (run w inv) = Thrown (InputError msg)
    /\ msg = "No matching integration configuration for host " ++ host loc
              ++ ", please check your integrations config"
    /\ contains msg (host loc)
    /\ filter isNetwork (trace (run w inv)) = []
    /\ filter isFilesystem (trace (run w inv)) = []
    /\ outputs (trace (run w inv)) = [].
Proof.
  intros Hloc Hnone. eexists.
  by_cases; try congruence; same_answer; try congruence.
  spell_out inv;
    (repeat split; try reflexivity;
     apply contains_prefix, contains_suffix, contains_refl).
Qed.

Lemma missing_integration_aborts_witness :
  exists msg,
    outcome (run Demo.noIntegration (SingleFile (Demo.ctx2 "a.md" None None)))
      = Thrown (InputError msg)
    /\ msg = "No matching integration configuration for host gitlab.com, please check your integrations config"
    /\ contains msg "gitlab.com"
    /\ filter isNetwork
         (trace (run Demo.noIntegration (SingleFile (Demo.ctx2 "a.md" None None)))) = []
    /\ filter isFilesystem
         (trace (run Demo.noIntegration (SingleFile (Demo.ctx2 "a.md" None None)))) = []
    /\ outputs
         (trace (run Demo.noIntegration (SingleFile (Demo.ctx2 "a.md" None None)))) = [].
Proof.
  exact (missing_integration_aborts Demo.noIntegration
           (SingleFile (Demo.ctx2 "a.md" None None)) Demo.locator
           eq_refl eq_refl).
Defined.

(** ** Outputs and failures *)

(** C10. On every run that ends in a throw, whatever the failing step,
    nothing was written to the output sink; and any write to the sink is
    preceded by an [api.Issues.create] call that resolved. *)
Theorem outputs_only_after_creation (w : World) (inv : Invocation) :
  (forall e, outcome (run w inv) = Thrown e -> outputs (trace (run w inv)) = [])
  /\ (forall k v, In (Output k v) (trace (run w inv)) ->
        outcome (run w inv) = Returned tt
        /\ exists opts pid issue res,
             credential (trace (run w inv)) = Some opts
             /\ In (NetIssuesCreate pid issue) (beforeOutputs (trace (run w inv)))
             /\ Issues_create w opts pid issue = inr res).
Proof.
  by_cases; spell_out inv;
    (split;
     [ intros ? Hthrown; first [reflexivity | discriminate Hthrown]
     | intros k v Hin; pick_events;
       (split; [reflexivity|]);
       do 4 eexists;
       (split; [reflexivity|]); (split; [|eassumption]);
       cbn [In]; tauto ]).
Qed.

(** C8. When [api.Projects.show] rejects, the handler ends by throwing that
    very error: it is not wrapped, no issue is submitted and nothing is
    written to the output sink. *)
Theorem lookup_failure_propagates
    (w : World) (inv : Invocation) (opts : GitlabOptions) (pp : string)
    (e : JsError) :
  credential (trace (run w inv)) = Some opts ->
  In (NetProjectsShow pp) (trace (run w inv)) ->
  Projects_show w opts pp = inl e ->
  outcome (run w inv) = Thrown e
  /\ submitted (trace (run w inv)) = []
  /\ outputs (trace (run w inv)) = [].
Proof.
  intros Hcred Hin Hrej. revert Hcred Hin.
  by_cases; spell_out inv; intros Hcred Hin; pick_events;
    try discriminate Hcred; same_answer; try congruence;
    (repeat split; try reflexivity; congruence).
Qed.

Lemma lookup_failure_propagates_witness :
  outcome (run Demo.lookupFails (SingleFile (Demo.ctx2 "a.md" None None)))
    = Thrown (mkError "Error" "404 Project Not Found")
  /\ submitted (trace (run Demo.lookupFails (SingleFile (Demo.ctx2 "a.md" None None)))) = []
  /\ outputs (trace (run Demo.lookupFails (SingleFile (Demo.ctx2 "a.md" None None)))) = [].
Proof.
  apply (lookup_failure_propagates Demo.lookupFails
           (SingleFile (Demo.ctx2 "a.md" None None))
           (mkOptions "https://gitlab.com" token_kind (Some "glpat-admin"))
           "org/repo").
  - reflexivity.
  - cbn. tauto.
  - reflexivity.
Defined.

(** C7. When [api.Issues.create] rejects with [e], the handler ends by
    throwing an [InputError] (never the raw [e], never a normal return)
    whose message contains the project path that was looked up and the
    message of [e]; nothing is written to the output sink. *)
Theorem creation_failure_is_classified
    (w : World) (inv : Invocation) (opts : GitlabOptions) (pp : string)
    (pid : Z) (issue : Issue) (e : JsError) :
  credential (trace (run w inv)) = Some opts ->
  In (NetProjectsShow pp) (trace (run w inv)) ->
  In (NetIssuesCreate pid issue) (trace (run w inv)) ->
  Issues_create w opts pid issue = inl e ->
  exists msg,
    outcome (run w inv) = Thrown (InputError msg)
    /\ msg = "Creating the issue to " ++ pp ++ " failed " ++ Error_toString e
    /\ isInputError (InputError msg) = true
    /\ contains msg pp
    /\ contains msg (err_message e)
    /\ outputs (trace (run w inv)) = [].
Proof.
  intros Hcred Hlook Hin Hrej.
  exists ("Creating the issue to " ++ pp ++ " failed " ++ Error_toString e).
  revert Hcred Hlook Hin.
  by_cases; spell_out inv; intros Hcred Hlook Hin; pick_events;
    try discriminate Hcred; same_answer; try congruence;
    (repeat split; try reflexivity;
     [ apply contains_prefix, contains_suffix, contains_refl
     | apply contains_prefix, contains_prefix, contains_prefix,
         Error_toString_contains_message ]).
Qed.

Lemma creation_failure_is_classified_witness :
  exists msg,
    outcome (run Demo.createFails (JoinAll (Demo.ctx1 "docs" None (Some "grp/prj"))))
      = Thrown (InputError msg)
    /\ msg = "Creating the issue to grp/prj failed Error: 403 Forbidden"
    /\ isInputError (InputError msg) = true
    /\ contains msg "grp/prj"
    /\ contains msg "403 Forbidden"
    /\ outputs (trace (run Demo.createFails
                         (JoinAll (Demo.ctx1 "docs" None (Some "grp/prj"))))) = [].
Proof.
  apply (creation_failure_is_classified Demo.createFails
           (JoinAll (Demo.ctx1 "docs" None (Some "grp/prj")))
           (mkOptions "https://gitlab.com" token_kind (Some "glpat-admin"))
           "grp/prj" 42
           (mkIssue "Onboarding" (Some "X,Y") ["onboarding"])
           (mkError "Error" "403 Forbidden")).
  - reflexivity.
  - cbn. tauto.
  - cbn. tauto.
  - reflexivity.
Defined.

(** ** Project path *)

Lemma truthy_Some (s : string) : truthy (Some s) = true <-> s <> EmptyString.
Proof.
  unfold truthy. destruct (String.eqb_spec s EmptyString); simpl; split;
    congruence.
Qed.

Lemma truthy_None_or_empty (v : option string) :
  truthy v = false <-> v = None \/ v = Some EmptyString.
Proof.
  destruct v as [s|]; simpl.
  - destruct (String.eqb_spec s EmptyString); simpl; split; intros;
      try subst; auto; try discriminate.
    destruct H as [H|H]; congruence.
  - split; auto.
Qed.

(** [p] is the project path of a run: every lookup is for [p], both path
    outputs carry [p], and a run that returns did look [p] up and did report
    it under both keys. *)
Definition projectPathUsed (r : Eff unit) (p : string) : Prop :=
  (forall q, In (NetProjectsShow q) (trace r) -> q = p)
  /\ (forall k v, In (Output k v) (trace r) ->
        k = "projectid" \/ k = "projectPath" -> v = p)
  /\ (outcome r = Returned tt ->
        In (NetProjectsShow p) (trace r)
        /\ In (Output "projectid" p) (trace r)
        /\ In (Output "projectPath" p) (trace r)).

(** The path computed by the deprecation branch is the one the run uses,
    and the warning is logged exactly when [projectid] is truthy. *)
Lemma computed_path_is_used (w : World) (inv : Invocation) (loc : RepoLocator) :
  parseRepoUrl w (inv_repoUrl inv) = inr loc ->
  projectPathUsed (run w inv) (projectPath inv loc)
  /\ (truthy (inv_projectid inv) = true ->
      In (LoggerWarn deprecationWarning) (trace (run w inv)))
  /\ (truthy (inv_projectid inv) = false ->
      ~ In (LoggerWarn deprecationWarning) (trace (run w inv))).
Proof.
  intros Hloc. unfold projectPathUsed.
  by_cases; try congruence; same_answer;
    generalize (projectPath inv loc); intros p;
    spell_out inv;
    (repeat split;
     try (unfold not; intros; pick_events; try reflexivity; try discriminate;
          try match goal with
              | H : _ \/ _ |- _ => destruct H; discriminate
              end;
          cbn [In]; tauto)).
Qed.

(** C4. Once the repository URL is parsed, the project path has exactly one
    source.  When the [projectid] input is present (truthy, as the handler
    tests it: defined and not the empty string) it wins: the deprecation
    warning is sent to [ctx.logger] and [projectid] is the path of the
    lookup and of both path outputs.  Otherwise no warning is logged and the
    path is [owner/repo]. *)
Theorem project_path_determination
    (w : World) (inv : Invocation) (loc : RepoLocator) :
  parseRepoUrl w (inv_repoUrl inv) = inr loc ->
  (truthy (inv_projectid inv) = true ->
     exists pid,
       inv_projectid inv = Some pid
       /\ In (LoggerWarn deprecationWarning) (trace (run w inv))
       /\ projectPathUsed (run w inv) pid)
  /\ (truthy (inv_projectid inv) = false ->
     ~ In (LoggerWarn deprecationWarning) (trace (run w inv))
     /\ projectPathUsed (run w inv) (owner loc ++ "/" ++ repo loc)).
Proof.
  intros Hloc.
  destruct (computed_path_is_used w inv loc Hloc) as (Hused & Hwarn & Hquiet).
  unfold projectPath in Hused. split.
  - intros Hpresent. rewrite Hpresent in Hused.
    destruct (inv_projectid inv) as [pid|]; [|discriminate Hpresent].
    exists pid. auto.
  - intros Habsent. rewrite Habsent in Hused. auto.
Qed.

Lemma project_path_determination_witness :
  exists pid,
    inv_projectid (JoinAll (Demo.ctx1 "docs" None (Some "grp/prj"))) = Some pid
    /\ In (LoggerWarn deprecationWarning)
         (trace (run Demo.happy (JoinAll (Demo.ctx1 "docs" None (Some "grp/prj")))))
    /\ projectPathUsed
         (run Demo.happy (JoinAll (Demo.ctx1 "docs" None (Some "grp/prj"))))
         pid.
Proof.
  apply (proj1 (project_path_determination Demo.happy
                  (JoinAll (Demo.ctx1 "docs" None (Some "grp/prj")))
                  Demo.locator eq_refl)).
  reflexivity.
Defined.

(** ** Credential *)

(** C1, as stated, fails on the single-file version: with a caller token and a
    configured token both present, the client is built with kind [token] and
    the configured value, not with kind [oauthToken] and the caller's
    token. *)
Lemma explicit_token_ignored_by_single_file_version :
  truthy (inv_token (SingleFile (Demo.ctx2 "a.md" (Some "user-oauth") None))) = true
  /\ credential
       (trace (run Demo.happy (SingleFile (Demo.ctx2 "a.md" (Some "user-oauth") None))))
     = Some (mkOptions "https://gitlab.com" token_kind (Some "glpat-admin"))
  /\ credential
       (trace (run Demo.happy (SingleFile (Demo.ctx2 "a.md" (Some "user-oauth") None))))
     <> Some (mkOptions "https://gitlab.com" oauthToken_kind (Some "user-oauth")).
Proof. repeat split; discriminate. Qed.

(** C1, amended.  Past the integration lookup, both versions throw the
    [InputError] "No token available for host ..." (and build no client)
    when neither the configured nor the caller token is present.  The
    join-all version hands a present caller token over as [oauthToken], and
    the configured token as [token] when the caller gave none.  The single-file
    version never uses the caller token as the credential: whenever the
    configured token is present, it is handed over as [token]. *)
Theorem credential_resolution
    (w : World) (inv : Invocation) (loc : RepoLocator)
    (integ : GitLabIntegration) :
  parseRepoUrl w (inv_repoUrl inv) = inr loc ->
  byHost w (host loc) = Some integ ->
  (truthy (cfg_token (config integ)) = false ->
   truthy (inv_token inv) = false ->
     outcome (run w inv)
       = Thrown (InputError ("No token available for host " ++ host loc))
     /\ credential (trace (run w inv)) = None)
  /\ (forall ctx, inv = JoinAll ctx ->
      truthy (inv_token inv) = true ->
        credential (trace (run w inv))
          = Some (mkOptions (baseUrl (config integ)) oauthToken_kind
                            (inv_token inv)))
  /\ (forall ctx, inv = JoinAll ctx ->
      inv_token inv = None ->
      truthy (cfg_token (config integ)) = true ->
        credential (trace (run w inv))
          = Some (mkOptions (baseUrl (config integ)) token_kind
                            (cfg_token (config integ))))
  /\ (forall ctx, inv = SingleFile ctx ->
      truthy (cfg_token (config integ)) = true ->
        credential (trace (run w inv))
          = Some (mkOptions (baseUrl (config integ)) token_kind
                            (cfg_token (config integ)))).
Proof.
  intros Hloc Hinteg.
  rewrite run_unfold. unfold run_cases.
  rewrite Hloc. cbn beta iota. rewrite Hinteg. cbn beta iota zeta.
  destruct (truthy (cfg_token (config integ))) eqn:Hcfg;
    destruct (truthy (inv_token inv)) eqn:Htok; cbn [negb andb];
    repeat (ask_cases; cbn beta iota zeta delta [trace outcome fst snd]);
    spell_out inv; cbn [inv_token clientOptions] in *;
    (repeat split; intros; try discriminate; try reflexivity;
     rewrite ?Htok;
     destruct (V1.token (V1.input ctx)); cbn [nullish truthy] in *;
     congruence).
Qed.

Lemma credential_resolution_witness :
  credential
    (trace (run Demo.happy (JoinAll (Demo.ctx1 "docs" (Some "user-oauth") None))))
  = Some (mkOptions "https://gitlab.com" oauthToken_kind (Some "user-oauth")).
Proof.
  apply (proj1 (proj2 (credential_resolution Demo.happy
                         (JoinAll (Demo.ctx1 "docs" (Some "user-oauth") None))
                         Demo.locator Demo.integration eq_refl eq_refl))
               (Demo.ctx1 "docs" (Some "user-oauth") None) eq_refl).
  reflexivity.
Defined.

(** ** Description of the issue *)

(** Every submitted issue carries the description computed from the files
    that the serializer returned. *)
Lemma submitted_description
    (w : World) (inv : Invocation) (root : string)
    (files : list SerializedFile) (pid : Z) (issue : Issue) :
  In (FsSerialize root) (trace (run w inv)) ->
  serializeDirectoryContents w root = inr files ->
  In (NetIssuesCreate pid issue) (trace (run w inv)) ->
  issue = payload w inv files.
Proof.
  intros Hfs Hser Hin. revert Hfs Hin.
  by_cases; spell_out inv; intros Hfs Hin; pick_events;
    same_answer; reflexivity.
Qed.

(** C2, as stated, fails: for two files with contents X and Y the join-all
    version submits the description [X,Y], which is not X followed by Y. *)
Lemma description_is_not_plain_concatenation :
  serializeDirectoryContents Demo.happy "/tmp/workspace/docs"
    = inr [mkFile "a.md" "X"; mkFile "b.md" "Y"]
  /\ map issue_description
       (submitted (trace (V1.handler Demo.happy (Demo.ctx1 "docs" None None))))
     = [Some "X,Y"]
  /\ Some "X,Y" <> Some ("X" ++ "Y").
Proof. repeat split; discriminate. Qed.

(** C2, amended.  In the join-all version the description of every submitted
    issue is the contents of all serialized files, in the order of the
    serializer, joined with a comma between consecutive files; it is their
    plain concatenation when the serializer returned at most one file. *)
Theorem description_joins_all_files
    (w : World) (ctx : V1.Ctx) (root : string) (files : list SerializedFile)
    (pid : Z) (issue : Issue) :
  In (FsSerialize root) (trace (V1.handler w ctx)) ->
  serializeDirectoryContents w root = inr files ->
  In (NetIssuesCreate pid issue) (trace (V1.handler w ctx)) ->
  issue_description issue
    = Some (String.concat ","
              (map (fun file => Buffer_toString w (content file)) files))
  /\ (length files <= 1 ->
      issue_description issue
        = Some (String.concat EmptyString
                  (map (fun file => Buffer_toString w (content file)) files))).
Proof.
  intros Hfs Hser Hin.
  rewrite (submitted_description w (JoinAll ctx) root files pid issue Hfs Hser Hin).
  cbn [payload issue_description descriptionOf]. unfold Array_join.
  split; [reflexivity|].
  intros Hlen. destruct files as [|f [|g files]]; try reflexivity.
  simpl in Hlen. lia.
Qed.

Lemma description_joins_all_files_witness :
  issue_description (mkIssue "Onboarding" (Some "X,Y") ["onboarding"])
    = Some (String.concat ","
              (map (fun file => Buffer_toString Demo.happy (content file))
                   Demo.twoFiles))
  /\ (length Demo.twoFiles <= 1 ->
      issue_description (mkIssue "Onboarding" (Some "X,Y") ["onboarding"])
        = Some (String.concat EmptyString
                  (map (fun file => Buffer_toString Demo.happy (content file))
                       Demo.twoFiles))).
Proof.
  apply (description_joins_all_files Demo.happy (Demo.ctx1 "docs" None None)
           "/tmp/workspace/docs" Demo.twoFiles 42).
  - cbn. tauto.
  - reflexivity.
  - cbn. tauto.
Defined.

Lemma find_first {A : Type} (p : A -> bool) (pre : list A) (x : A) (post : list A) :
  (forall y, In y pre -> p y = false) -> p x = true ->
  find p (pre ++ x :: post) = Some x.
Proof.
  induction pre as [|y pre IH]; intros Hpre Hx; simpl.
  - now rewrite Hx.
  - rewrite (Hpre y (or_introl eq_refl)). apply IH; [|exact Hx].
    intros z Hz. apply Hpre. now right.
Qed.

Lemma find_nothing {A : Type} (p : A -> bool) (l : list A) :
  (forall y, In y l -> p y = false) -> find p l = None.
Proof.
  induction l as [|y l IH]; intros Hl; simpl; [reflexivity|].
  rewrite (Hl y (or_introl eq_refl)). apply IH.
  intros z Hz. apply Hl. now right.
Qed.

(** C3. In the single-file version the description of every submitted issue is
    the content of the first serialized file whose path is exactly the
    [targetPath] input, and it is undefined when no serialized file has that
    path. *)
Theorem description_is_the_matching_file
    (w : World) (ctx : V2.Ctx) (root : string) (files : list SerializedFile)
    (pid : Z) (issue : Issue) :
  In (FsSerialize root) (trace (V2.handler w ctx)) ->
  serializeDirectoryContents w root = inr files ->
  In (NetIssuesCreate pid issue) (trace (V2.handler w ctx)) ->
  (forall pre file post,
     files = (pre ++ file :: post)%list ->
     path file = V2.targetPath (V2.input ctx) ->
     (forall other, In other pre -> path other <> V2.targetPath (V2.input ctx)) ->
     issue_description issue = Some (Buffer_toString w (content file)))
  /\ ((forall file, In file files -> path file <> V2.targetPath (V2.input ctx)) ->
      issue_description issue = None).
Proof.
  intros Hfs Hser Hin.
  rewrite (submitted_description w (SingleFile ctx) root files pid issue Hfs Hser Hin).
  cbn [payload issue_description descriptionOf]. unfold Array_find. split.
  - intros pre file post -> Hpath Hpre.
    rewrite find_first; [reflexivity| |now apply String.eqb_eq].
    intros other Hother. apply String.eqb_neq. now apply Hpre.
  - intros Hnone. rewrite find_nothing; [reflexivity|].
    intros file Hfile. apply String.eqb_neq. now apply Hnone.
Qed.

Lemma description_is_the_matching_file_witness :
  issue_description (mkIssue "Onboarding" (Some "X") ["onboarding"])
    = Some (Buffer_toString Demo.happy (content (mkFile "a.md" "X"))).
Proof.
  apply (proj1 (description_is_the_matching_file Demo.happy
                  (Demo.ctx2 "a.md" None None) "/tmp/workspace/a.md"
                  Demo.twoFiles 42
                  (mkIssue "Onboarding" (Some "X") ["onboarding"])
                  ltac:(cbn; tauto) eq_refl ltac:(cbn; tauto))
               [] (mkFile "a.md" "X") [mkFile "b.md" "Y"]).
  - reflexivity.
  - reflexivity.
  - intros other [].
Defined.

(** ** Successful runs *)

(** A run that returns submitted exactly one issue, titled as the input and
    labelled [onboarding], and wrote exactly three outputs: the project path
    twice and the URL of the created issue. *)
Lemma success_outputs_shape (w : World) (inv : Invocation) :
  outcome (run w inv) = Returned tt ->
  exists opts pp pid issue res,
    credential (trace (run w inv)) = Some opts
    /\ In (NetProjectsShow pp) (trace (run w inv))
    /\ Issues_create w opts pid issue = inr res
    /\ submitted (trace (run w inv)) = [issue]
    /\ issue_title issue = inv_title inv
    /\ issue_labels issue = ["onboarding"]
    /\ outputs (trace (run w inv))
       = [("projectid", pp); ("projectPath", pp);
          (resourceUrlKey inv, web_url res)].
Proof.
  by_cases; intros Hret; try discriminate Hret;
    exists (clientOptions inv integ), (projectPath inv loc), (id proj),
           (payload w inv files), res;
    spell_out inv;
    (split; [reflexivity|]); (split; [cbn [In]; tauto|]);
    (split; [assumption|]); repeat split.
Qed.

(** The single-file version reports the URL under a key of its output schema. *)
Lemma single_file_resource_url_key_declared (ctx : V2.Ctx) :
  In (resourceUrlKey (SingleFile ctx)) (declaredOutputKeys (SingleFile ctx)).
Proof. cbn. tauto. Qed.

(** C6 (defect of the join-all version).  On a successful run the join-all
    version writes the three outputs, but the URL goes under the key
    [mergeRequestUrl], while its output schema declares [mergeRequestURL]:
    the key it writes is not a declared one. *)
Theorem join_all_resource_url_key_not_declared :
  outcome (run Demo.happy (JoinAll (Demo.ctx1 "docs" None None))) = Returned tt
  /\ outputs (trace (run Demo.happy (JoinAll (Demo.ctx1 "docs" None None))))
     = [("projectid", "org/repo"); ("projectPath", "org/repo");
        ("mergeRequestUrl", Demo.issueUrl)]
  /\ declaredOutputKeys (JoinAll (Demo.ctx1 "docs" None None))
     = ["projectid"; "projectPath"; "mergeRequestURL"]
  /\ ~ In "mergeRequestUrl"
          (declaredOutputKeys (JoinAll (Demo.ctx1 "docs" None None))).
Proof.
  repeat split. cbn. intros [H|[H|[H|[]]]]; discriminate H.
Qed.

(** ** Containment *)

(** C9. With the containment check of the filesystem layer, a [targetPath]
    that escapes the workspace root makes the handler (either version)
    throw; no directory is serialized, no remote call is made and nothing is
    output; and whenever the run got as far as building the client, the
    error thrown is the containment [InputError]. *)
Theorem escaping_targetPath_is_rejected (w : World) (inv : Invocation) :
  (forall base p, resolveSafeChildPath w base p = Paths.resolveSafeChildPath base p) ->
  Paths.escapesRoot (inv_workspacePath inv) (inv_targetPath inv) = true ->
  filter isFilesystem (trace (run w inv)) = []
  /\ filter isNetwork (trace (run w inv)) = []
  /\ outputs (trace (run w inv)) = []
  /\ exists e,
       outcome (run w inv) = Thrown e
       /\ (forall opts, credential (trace (run w inv)) = Some opts ->
             e = InputError Paths.containmentMessage
             /\ isInputError e = true).
Proof.
  intros Hsafe Hesc.
  assert (Hrej : resolveSafeChildPath w (inv_workspacePath inv) (inv_targetPath inv)
                 = inl (InputError Paths.containmentMessage)).
  { rewrite Hsafe. unfold Paths.resolveSafeChildPath. now rewrite Hesc. }
  clear Hsafe Hesc.
  by_cases; try congruence; same_answer; spell_out inv;
    (repeat split; eexists; (split; [reflexivity|]);
     intros opts Hcred; try discriminate Hcred;
     split; reflexivity).
Qed.

Lemma escaping_targetPath_is_rejected_witness :
  Paths.escapesRoot "/tmp/workspace" "../../etc" = true
  /\ filter isFilesystem
       (trace (run Demo.happy (SingleFile (Demo.ctx2 "../../etc" None None)))) = []
  /\ filter isNetwork
       (trace (run Demo.happy (SingleFile (Demo.ctx2 "../../etc" None None)))) = []
  /\ outputs
       (trace (run Demo.happy (SingleFile (Demo.ctx2 "../../etc" None None)))) = []
  /\ exists e,
       outcome (run Demo.happy (SingleFile (Demo.ctx2 "../../etc" None None)))
         = Thrown e
       /\ (forall opts,
             credential
               (trace (run Demo.happy (SingleFile (Demo.ctx2 "../../etc" None None))))
             = Some opts ->
             e = InputError Paths.containmentMessage /\ isInputError e = true).
Proof.
  split; [reflexivity|].
  apply (escaping_targetPath_is_rejected Demo.happy
           (SingleFile (Demo.ctx2 "../../etc" None None))).
  - intros base p. reflexivity.
  - reflexivity.
Defined.

(** ** Progress

    The properties above speak about events of a trace; the following
    lemmas show that each step of the handler is reached as soon as the
    steps before it went through, so that none of them holds emptily. *)

(** With an integration and some token, the client is built. *)
Lemma client_is_built
    (w : World) (inv : Invocation) (loc : RepoLocator)
    (integ : GitLabIntegration) :
  parseRepoUrl w (inv_repoUrl inv) = inr loc ->
  byHost w (host loc) = Some integ ->
  truthy (cfg_token (config integ)) || truthy (inv_token inv) = true ->
  credential (trace (run w inv)) = Some (clientOptions inv integ).
Proof.
  intros Hloc Hinteg Htok.
  by_cases; try congruence; same_answer;
    try (spell_out inv; reflexivity).
  revert Htok Hguard.
  repeat match goal with
         | |- context [truthy ?v] => destruct (truthy v)
         end;
    cbn; intros; discriminate.
Qed.

(** Once the client is built and the target path is contained, the
    directory is serialized. *)
Lemma serialization_is_reached
    (w : World) (inv : Invocation) (opts : GitlabOptions) (root : string) :
  credential (trace (run w inv)) = Some opts ->
  resolveSafeChildPath w (inv_workspacePath inv) (inv_targetPath inv) = inr root ->
  In (FsSerialize root) (trace (run w inv)).
Proof.
  intros Hcred Hroot. revert Hcred.
  by_cases; try congruence; same_answer; spell_out inv; intros Hcred;
    try discriminate Hcred; cbn [In]; tauto.
Qed.

(** Once the directory is serialized, the project is looked up. *)
Lemma lookup_is_reached
    (w : World) (inv : Invocation) (root : string)
    (files : list SerializedFile) :
  In (FsSerialize root) (trace (run w inv)) ->
  serializeDirectoryContents w root = inr files ->
  exists pp, In (NetProjectsShow pp) (trace (run w inv)).
Proof.
  intros Hfs Hfiles. revert Hfs.
  by_cases; spell_out inv; intros Hfs; pick_events;
    same_answer; try congruence;
    eexists; cbn [In]; eauto 12.
Qed.

(** Once the project is found, an issue titled as the input and labelled
    [onboarding] is submitted under the project's id. *)
Lemma submission_is_reached
    (w : World) (inv : Invocation) (opts : GitlabOptions) (pp : string)
    (proj : ProjectSchema) :
  credential (trace (run w inv)) = Some opts ->
  In (NetProjectsShow pp) (trace (run w inv)) ->
  Projects_show w opts pp = inr proj ->
  exists issue,
    In (NetIssuesCreate (id proj) issue) (trace (run w inv))
    /\ issue_title issue = inv_title inv
    /\ issue_labels issue = ["onboarding"].
Proof.
  intros Hcred Hlook Hfound. revert Hcred Hlook.
  by_cases; spell_out inv; intros Hcred Hlook; pick_events;
    try discriminate Hcred; same_answer; try congruence;
    eexists; (split; [cbn [In]; eauto 12|]); split; reflexivity.
Qed.

(** Once the issue is created, the handler returns. *)
Lemma creation_success_returns
    (w : World) (inv : Invocation) (opts : GitlabOptions) (pid : Z)
    (issue : Issue) (res : IssueSchema) :
  credential (trace (run w inv)) = Some opts ->
  In (NetIssuesCreate pid issue) (trace (run w inv)) ->
  Issues_create w opts pid issue = inr res ->
  outcome (run w inv) = Returned tt
  /\ In (Output (resourceUrlKey inv) (web_url res)) (trace (run w inv)).
Proof.
  intros Hcred Hin Hok. revert Hcred Hin.
  by_cases; spell_out inv; intros Hcred Hin; pick_events;
    try discriminate Hcred; same_answer; try congruence;
    (split; [reflexivity | cbn [In]; tauto]).
Qed.


(** * Further properties of the handlers *)

(** [spell_out] for a run whose version is known. *)
Ltac spell_known :=
  unfold warnings, logsAfterSerialize, logsAfterLookup;
  repeat match goal with
         | |- context [truthy (inv_projectid ?i)] =>
             destruct (truthy (inv_projectid i)) eqn:?Hpresent
         end;
  cbn [app credential submitted outputs beforeOutputs filter
       isNetwork isFilesystem isOutput resourceUrlKey].

(** ** Failures before the remote calls *)

(** When [parseRepoUrl] throws, the handler throws that very error and has
    done nothing at all: not even the deprecation warning is logged, whatever
    the [projectid] input. *)
Theorem parse_failure_propagates (w : World) (inv : Invocation) (e : JsError) :
  parseRepoUrl w (inv_repoUrl inv) = inl e ->
  outcome (run w inv) = Thrown e /\ trace (run w inv) = [].
Proof.
  intros Hparse. rewrite run_unfold. unfold run_cases. rewrite Hparse.
  split; reflexivity.
Qed.

Lemma parse_failure_propagates_witness :
  outcome (run Demo.happy
             (JoinAll (V1.mkCtx (V1.mkInput "not a url" "Onboarding" "" "main"
                                   "docs" None (Some "grp/prj") None)
                                "/tmp/workspace")))
    = Thrown (InputError "Invalid repo URL")
  /\ trace (run Demo.happy
              (JoinAll (V1.mkCtx (V1.mkInput "not a url" "Onboarding" "" "main"
                                    "docs" None (Some "grp/prj") None)
                                 "/tmp/workspace"))) = [].
Proof.
  apply (parse_failure_propagates Demo.happy
           (JoinAll (V1.mkCtx (V1.mkInput "not a url" "Onboarding" "" "main"
                                 "docs" None (Some "grp/prj") None)
                              "/tmp/workspace"))).
  reflexivity.
Defined.

(** When [serializeDirectoryContents] rejects, the handler throws that very
    error, unwrapped; no remote call was made and nothing is output. *)
Theorem serialization_failure_propagates
    (w : World) (inv : Invocation) (root : string) (e : JsError) :
  In (FsSerialize root) (trace (run w inv)) ->
  serializeDirectoryContents w root = inl e ->
  outcome (run w inv) = Thrown e
  /\ filter isNetwork (trace (run w inv)) = []
  /\ outputs (trace (run w inv)) = [].
Proof.
  intros Hfs Hrej. revert Hfs.
  by_cases; spell_out inv; intros Hfs; pick_events; same_answer;
    try congruence; repeat split; reflexivity.
Qed.

Lemma serialization_failure_propagates_witness :
  outcome (run (Demo.world Demo.registry (inl (mkError "Error" "EACCES"))
                  (inr (mkProject 42)) (inr (mkIssueRes Demo.issueUrl)))
             (SingleFile (Demo.ctx2 "a.md" None None)))
    = Thrown (mkError "Error" "EACCES")
  /\ filter isNetwork
       (trace (run (Demo.world Demo.registry (inl (mkError "Error" "EACCES"))
                      (inr (mkProject 42)) (inr (mkIssueRes Demo.issueUrl)))
                 (SingleFile (Demo.ctx2 "a.md" None None)))) = []
  /\ outputs
       (trace (run (Demo.world Demo.registry (inl (mkError "Error" "EACCES"))
                      (inr (mkProject 42)) (inr (mkIssueRes Demo.issueUrl)))
                 (SingleFile (Demo.ctx2 "a.md" None None)))) = [].
Proof.
  apply (serialization_failure_propagates
           (Demo.world Demo.registry (inl (mkError "Error" "EACCES"))
              (inr (mkProject 42)) (inr (mkIssueRes Demo.issueUrl)))
           (SingleFile (Demo.ctx2 "a.md" None None)) "/tmp/workspace/a.md").
  - cbn. tauto.
  - reflexivity.
Defined.

(** The only directory a run ever serializes is the one returned by
    [resolveSafeChildPath] for the workspace path and the [targetPath]
    input. *)
Theorem serialization_is_confined
    (w : World) (inv : Invocation) (root : string) :
  In (FsSerialize root) (trace (run w inv)) ->
  resolveSafeChildPath w (inv_workspacePath inv) (inv_targetPath inv) = inr root.
Proof.
  intros Hfs. revert Hfs.
  by_cases; spell_out inv; intros Hfs; pick_events; reflexivity.
Qed.

Lemma serialization_is_confined_witness :
  resolveSafeChildPath Demo.happy
    (inv_workspacePath (JoinAll (Demo.ctx1 "docs" None None)))
    (inv_targetPath (JoinAll (Demo.ctx1 "docs" None None)))
  = inr "/tmp/workspace/docs".
Proof.
  apply (serialization_is_confined Demo.happy (JoinAll (Demo.ctx1 "docs" None None))).
  cbn. tauto.
Defined.

(** ** What a run does at most once *)

(** Whatever the environment answers, a run builds at most one client,
    serializes at most one directory, looks up at most one project and
    submits at most one issue; and it writes either no output or exactly
    three. *)
Theorem each_step_at_most_once (w : World) (inv : Invocation) :
  length (filter isClient (trace (run w inv))) <= 1
  /\ length (filter isFilesystem (trace (run w inv))) <= 1
  /\ length (filter isLookup (trace (run w inv))) <= 1
  /\ length (submitted (trace (run w inv))) <= 1
  /\ (outputs (trace (run w inv)) = []
      \/ length (outputs (trace (run w inv))) = 3).
Proof.
  by_cases; spell_out inv;
    cbn [isClient isLookup length];
    repeat split; auto.
Qed.

(** ** The submitted issue *)

(** An issue is only ever submitted under the id of a project that the
    lookup, made with the same client, returned. *)
Theorem created_under_looked_up_project
    (w : World) (inv : Invocation) (pid : Z) (issue : Issue) :
  In (NetIssuesCreate pid issue) (trace (run w inv)) ->
  exists opts pp proj,
    credential (trace (run w inv)) = Some opts
    /\ In (NetProjectsShow pp) (trace (run w inv))
    /\ Projects_show w opts pp = inr proj
    /\ pid = id proj.
Proof.
  intros Hin. revert Hin.
  by_cases; intros Hin;
    try (exists (clientOptions inv integ), (projectPath inv loc), proj);
    revert Hin; spell_out inv; intros Hin; pick_events;
    (split; [reflexivity|]); (split; [cbn [In]; tauto|]);
    (split; [assumption | reflexivity]).
Qed.

Lemma created_under_looked_up_project_witness :
  exists opts pp proj,
    credential (trace (run Demo.createFails (SingleFile (Demo.ctx2 "a.md" None None))))
      = Some opts
    /\ In (NetProjectsShow pp)
          (trace (run Demo.createFails (SingleFile (Demo.ctx2 "a.md" None None))))
    /\ Projects_show Demo.createFails opts pp = inr proj
    /\ 42%Z = id proj.
Proof.
  apply (created_under_looked_up_project Demo.createFails
           (SingleFile (Demo.ctx2 "a.md" None None)) 42
           (mkIssue "Onboarding" (Some "X") ["onboarding"])).
  cbn. tauto.
Defined.

(** Every issue a run submits, whether its creation then succeeds or not,
    carries the [title] input unchanged and the single label
    [onboarding]. *)
Theorem submitted_issue_title_and_labels
    (w : World) (inv : Invocation) (pid : Z) (issue : Issue) :
  In (NetIssuesCreate pid issue) (trace (run w inv)) ->
  issue_title issue = inv_title inv
  /\ issue_labels issue = ["onboarding"].
Proof.
  intros Hin. revert Hin.
  by_cases; spell_out inv; intros Hin; pick_events; split; reflexivity.
Qed.

Lemma submitted_issue_title_and_labels_witness :
  issue_title (mkIssue "Onboarding" (Some "X,Y") ["onboarding"])
    = inv_title (JoinAll (Demo.ctx1 "docs" None None))
  /\ issue_labels (mkIssue "Onboarding" (Some "X,Y") ["onboarding"])
     = ["onboarding"].
Proof.
  apply (submitted_issue_title_and_labels Demo.createFails
           (JoinAll (Demo.ctx1 "docs" None None)) 42).
  cbn. tauto.
Defined.

(** When the serializer returns no file at all, an issue is still submitted
    once the project is found: with the empty string as description in the
    join-all version, and with an undefined description in the single-file
    version. *)
Theorem empty_directory_description
    (w : World) (inv : Invocation) (root : string) (pid : Z) (issue : Issue) :
  In (FsSerialize root) (trace (run w inv)) ->
  serializeDirectoryContents w root = inr [] ->
  In (NetIssuesCreate pid issue) (trace (run w inv)) ->
  issue_description issue
  = match inv with
    | JoinAll _ => Some EmptyString
    | SingleFile _ => None
    end.
Proof.
  intros Hfs Hser Hin.
  rewrite (submitted_description w inv root [] pid issue Hfs Hser Hin).
  destruct inv; reflexivity.
Qed.

Lemma empty_directory_description_witness :
  issue_description (mkIssue "Onboarding" None ["onboarding"]) = None.
Proof.
  apply (empty_directory_description
           (Demo.world Demo.registry (inr []) (inr (mkProject 42))
              (inr (mkIssueRes Demo.issueUrl)))
           (SingleFile (Demo.ctx2 "a.md" None None)) "/tmp/workspace/a.md" 42
           (mkIssue "Onboarding" None ["onboarding"])).
  - cbn. tauto.
  - reflexivity.
  - cbn. tauto.
Defined.

(** ** Edges of the credential step *)

(** In the single-file version a caller token lets the run pass the token
    guard although the integration has no token; the client is then built
    with kind [token] and an undefined value, and the caller's token is not
    handed over. *)
Theorem single_file_client_without_token
    (w : World) (ctx : V2.Ctx) (loc : RepoLocator) (integ : GitLabIntegration) :
  parseRepoUrl w (V2.repoUrl (V2.input ctx)) = inr loc ->
  byHost w (host loc) = Some integ ->
  cfg_token (config integ) = None ->
  truthy (V2.token (V2.input ctx)) = true ->
  credential (trace (V2.handler w ctx))
  = Some (mkOptions (baseUrl (config integ)) token_kind None).
Proof.
  intros Hloc Hinteg Hcfg Htok.
  change (V2.handler w ctx) with (run w (SingleFile ctx)).
  rewrite run_unfold. unfold run_cases. cbn [inv_repoUrl inv_token].
  rewrite Hloc. cbn beta iota. rewrite Hinteg. cbn beta iota zeta.
  rewrite Hcfg, Htok. cbn [truthy negb andb clientOptions].
  rewrite Hcfg.
  repeat (ask_cases; cbn beta iota zeta delta [trace outcome fst snd]);
    spell_known; reflexivity.
Qed.

Lemma single_file_client_without_token_witness :
  credential
    (trace (V2.handler Demo.noConfiguredToken (Demo.ctx2 "a.md" (Some "user-oauth") None)))
  = Some (mkOptions "https://gitlab.com" token_kind None).
Proof.
  apply (single_file_client_without_token Demo.noConfiguredToken
           (Demo.ctx2 "a.md" (Some "user-oauth") None) Demo.locator
           (mkIntegration (mkConfig "https://gitlab.com" None)));
    reflexivity.
Defined.

(** In the join-all version the client is never built with an undefined
    token.  A caller token, once supplied, is always the value handed over,
    even when it is the empty string; but it is handed over as [oauthToken]
    only when it is not empty, and an empty one goes out as kind [token]. *)
Theorem join_all_token_is_defined
    (w : World) (ctx : V1.Ctx) (opts : GitlabOptions) :
  credential (trace (V1.handler w ctx)) = Some opts ->
  opt_token opts <> None
  /\ (forall t, V1.token (V1.input ctx) = Some t ->
        opt_token opts = Some t
        /\ (opt_tokenType opts = oauthToken_kind <-> t <> EmptyString))
  /\ (V1.token (V1.input ctx) = None -> opt_tokenType opts = token_kind).
Proof.
  change (V1.handler w ctx) with (run w (JoinAll ctx)).
  assert (Hopts : forall integ,
            negb (truthy (cfg_token (config integ)))
            && negb (truthy (V1.token (V1.input ctx))) = false ->
            opts = clientOptions (JoinAll ctx) integ ->
            opt_token opts <> None
            /\ (forall t, V1.token (V1.input ctx) = Some t ->
                  opt_token opts = Some t
                  /\ (opt_tokenType opts = oauthToken_kind <-> t <> EmptyString))
            /\ (V1.token (V1.input ctx) = None ->
                opt_tokenType opts = token_kind)).
  { intros integ Hguard ->. cbn [clientOptions opt_token opt_tokenType].
    destruct (V1.token (V1.input ctx)) as [t|]; cbn [nullish].
    - split; [discriminate|]. split; [|discriminate].
      intros t' Ht'. injection Ht' as <-. split; [reflexivity|].
      rewrite <- truthy_Some. destruct (truthy (Some t)); split;
        congruence.
    - cbn [truthy andb negb] in Hguard. rewrite andb_true_r in Hguard.
      destruct (cfg_token (config integ)); [|discriminate Hguard].
      split; [discriminate|]. split; [discriminate | reflexivity]. }
  by_cases; spell_known; intros Hcred; try discriminate Hcred;
    apply (Hopts integ Hguard); congruence.
Qed.

Lemma join_all_token_is_defined_witness :
  opt_token (mkOptions "https://gitlab.com" token_kind (Some EmptyString)) <> None
  /\ (forall t,
        V1.token (V1.input (Demo.ctx1 "docs" (Some EmptyString) None)) = Some t ->
        opt_token (mkOptions "https://gitlab.com" token_kind (Some EmptyString))
          = Some t
        /\ (opt_tokenType (mkOptions "https://gitlab.com" token_kind (Some EmptyString))
              = oauthToken_kind <-> t <> EmptyString))
  /\ (V1.token (V1.input (Demo.ctx1 "docs" (Some EmptyString) None)) = None ->
      opt_tokenType (mkOptions "https://gitlab.com" token_kind (Some EmptyString))
        = token_kind).
Proof.
  apply (join_all_token_is_defined Demo.happy
           (Demo.ctx1 "docs" (Some EmptyString) None)).
  reflexivity.
Defined.

(** ** Outputs against the declared schema *)

(** The single-file version only ever writes output keys that its output
    schema declares, and a run that returns has written each declared key
    exactly once, in the order of the schema. *)
Theorem single_file_outputs_match_schema (w : World) (ctx : V2.Ctx) :
  Forall (fun kv => In (fst kv) V2.outputSchemaKeys)
         (outputs (trace (V2.handler w ctx)))
  /\ (outcome (V2.handler w ctx) = Returned tt ->
      map fst (outputs (trace (V2.handler w ctx))) = V2.outputSchemaKeys).
Proof.
  change (V2.handler w ctx) with (run w (SingleFile ctx)).
  by_cases; spell_known;
    (split;
     [ repeat constructor; cbn; tauto
     | intros Hret; first [discriminate Hret | reflexivity] ]).
Qed.

Lemma success_outputs_shape_witness :
  exists opts pp pid issue res,
    credential (trace (run Demo.happy (SingleFile (Demo.ctx2 "a.md" None None))))
      = Some opts
    /\ In (NetProjectsShow pp)
          (trace (run Demo.happy (SingleFile (Demo.ctx2 "a.md" None None))))
    /\ Issues_create Demo.happy opts pid issue = inr res
    /\ submitted (trace (run Demo.happy (SingleFile (Demo.ctx2 "a.md" None None))))
       = [issue]
    /\ issue_title issue = inv_title (SingleFile (Demo.ctx2 "a.md" None None))
    /\ issue_labels issue = ["onboarding"]
    /\ outputs (trace (run Demo.happy (SingleFile (Demo.ctx2 "a.md" None None))))
       = [("projectid", pp); ("projectPath", pp);
          (resourceUrlKey (SingleFile (Demo.ctx2 "a.md" None None)), web_url res)].
Proof.
  apply (success_outputs_shape Demo.happy (SingleFile (Demo.ctx2 "a.md" None None))).
  reflexivity.
Defined.

(** ** The whole run *)

(** When every collaborator answers, the handler returns: it has looked the
    project path up with the client it built, submitted the payload under
    the project's id, and reported the project path twice and the URL of the
    created issue. *)
Theorem all_steps_succeed_returns
    (w : World) (inv : Invocation) (loc : RepoLocator)
    (integ : GitLabIntegration) (root : string) (files : list SerializedFile)
    (proj : ProjectSchema) (res : IssueSchema) :
  parseRepoUrl w (inv_repoUrl inv) = inr loc ->
  byHost w (host loc) = Some integ ->
  truthy (cfg_token (config integ)) || truthy (inv_token inv) = true ->
  resolveSafeChildPath w (inv_workspacePath inv) (inv_targetPath inv) = inr root ->
  serializeDirectoryContents w root = inr files ->
  Projects_show w (clientOptions inv integ) (projectPath inv loc) = inr proj ->
  Issues_create w (clientOptions inv integ) (id proj) (payload w inv files)
    = inr res ->
  outcome (run w inv) = Returned tt
  /\ filter isNetwork (trace (run w inv))
     = [NetProjectsShow (projectPath inv loc);
        NetIssuesCreate (id proj) (payload w inv files)]
  /\ outputs (trace (run w inv))
     = [("projectid", projectPath inv loc);
        ("projectPath", projectPath inv loc);
        (resourceUrlKey inv, web_url res)].
Proof.
  intros Hloc Hinteg Htok Hroot Hfiles Hshow Hcreate.
  assert (Hguard : negb (truthy (cfg_token (config integ)))
                   && negb (truthy (inv_token inv)) = false).
  { destruct (truthy (cfg_token (config integ))), (truthy (inv_token inv));
      try reflexivity; discriminate Htok. }
  rewrite run_unfold. unfold run_cases.
  rewrite Hloc. cbn beta iota. rewrite Hinteg. cbn beta iota zeta.
  rewrite Hguard, Hroot. cbn beta iota. rewrite Hfiles. cbn beta iota.
  rewrite Hshow. cbn beta iota. rewrite Hcreate.
  cbn beta iota zeta delta [trace outcome fst snd].
  generalize (projectPath inv loc) (payload w inv files)
             (clientOptions inv integ).
  intros pp issue opts. spell_out inv; repeat split; reflexivity.
Qed.

Lemma all_steps_succeed_returns_witness :
  outcome (run Demo.happy (SingleFile (Demo.ctx2 "a.md" None (Some "grp/prj"))))
    = Returned tt
  /\ filter isNetwork
       (trace (run Demo.happy (SingleFile (Demo.ctx2 "a.md" None (Some "grp/prj")))))
     = [NetProjectsShow "grp/prj";
        NetIssuesCreate 42 (mkIssue "Onboarding" (Some "X") ["onboarding"])]
  /\ outputs
       (trace (run Demo.happy (SingleFile (Demo.ctx2 "a.md" None (Some "grp/prj")))))
     = [("projectid", "grp/prj"); ("projectPath", "grp/prj");
        ("issueUrl", Demo.issueUrl)].
Proof.
  apply (all_steps_succeed_returns Demo.happy
           (SingleFile (Demo.ctx2 "a.md" None (Some "grp/prj")))
           Demo.locator Demo.integration "/tmp/workspace/a.md" Demo.twoFiles
           (mkProject 42) (mkIssueRes Demo.issueUrl));
    reflexivity.
Defined.

(** ** Inputs that have no effect *)

(** The join-all version declares the inputs [description], [branchName]
    and [removeSourceBranch] but never reads them: two invocations that
    differ only there run identically.  In particular the description of the
    issue never comes from the [description] input. *)
Theorem join_all_ignores_declared_inputs
    (w : World) (repoUrl title targetPath workspacePath : string)
    (token projectid : option string)
    (description description' branchName branchName' : string)
    (removeSourceBranch removeSourceBranch' : option bool) :
  V1.handler w
    (V1.mkCtx (V1.mkInput repoUrl title description branchName targetPath
                          token projectid removeSourceBranch)
              workspacePath)
  = V1.handler w
      (V1.mkCtx (V1.mkInput repoUrl title description' branchName' targetPath
                            token projectid removeSourceBranch')
                workspacePath).
Proof.
  change (V1.handler w ?c) with (run w (JoinAll c)).
  rewrite !run_unfold. reflexivity.
Qed.

(** ** The deprecation warning *)

(** Once the repository URL is parsed, the warnings of a run are exactly
    these: the deprecation message to the logger followed by the same
    message to the console when [projectid] is truthy, and none otherwise;
    no other step warns. *)
Theorem deprecation_warning_once
    (w : World) (inv : Invocation) (loc : RepoLocator) :
  parseRepoUrl w (inv_repoUrl inv) = inr loc ->
  filter isWarning (trace (run w inv))
  = if truthy (inv_projectid inv)
    then [LoggerWarn deprecationWarning; ConsoleWarn deprecationWarning]
    else [].
Proof.
  intros Hloc.
  by_cases; try congruence; spell_out inv; reflexivity.
Qed.

Lemma deprecation_warning_once_witness :
  filter isWarning
    (trace (run Demo.lookupFails (JoinAll (Demo.ctx1 "docs" None (Some "grp/prj")))))
  = [LoggerWarn deprecationWarning; ConsoleWarn deprecationWarning].
Proof.
  apply (deprecation_warning_once Demo.lookupFails
           (JoinAll (Demo.ctx1 "docs" None (Some "grp/prj"))) Demo.locator).
  reflexivity.
Defined.
